(** * Grounded-search gateway ([main.py]): a shallow embedding and its properties

    The program is a FastAPI service with one working endpoint.  The
    embedding follows [main.py] top to bottom: the start-up code of the
    module (credential lookup and client construction), the core function
    [generate_grounded_content], and the two route handlers.

    Python values are dynamically typed and lists are mutable objects that
    live on a heap, so the model keeps a store of list objects and threads it,
    together with the log of outbound provider calls, through a small
    state-and-exception monad. *)

From Stdlib Require Import ZArith String.
From stdpp Require Import base option list strings gmap pretty.

Set Warnings "-register-all".
Local Open Scope string_scope.
Local Open Scope list_scope.
Local Open Scope Z_scope.

(** ** Python values and exceptions *)

Module Py.

(** Address of a list object on the heap. *)
Definition loc := nat.

(** The values that flow through [main.py]: [None], [str], a [dict] display
    (never mutated after it is built, hence stored by value) and a reference
    to a mutable [list] object. *)
Inductive pyval :=
| PyNone
| PyStr (s : string)
| PyDict (items : list (string * pyval))
| PyList (ref : loc).

(** An exception object as seen by [except Exception as e] and by the
    f-string [{e}]: its class name, whether its class derives from
    [Exception] (as opposed to [BaseException] only, like
    [KeyboardInterrupt]) and the text [str(e)]. *)
Record exn_obj := MkExn {
  exn_class : string;
  exn_is_Exception : bool;
  exn_str : string
}.

(** What can travel up the stack: an ordinary exception object, or the
    [HTTPException(status_code=..., detail=...)] of FastAPI. *)
Inductive pyexn :=
| Raised (e : exn_obj)
| HTTPException (status_code : Z) (detail : string).

(** [isinstance(e, Exception)]; [HTTPException] derives from [Exception]. *)
Definition is_Exception (e : pyexn) : bool :=
  match e with
  | Raised o => exn_is_Exception o
  | HTTPException _ _ => true
  end.

(** [str(e)]; Starlette's [HTTPException.__str__] gives
    ["<status_code>: <detail>"]. *)
Definition str (e : pyexn) : string :=
  match e with
  | Raised o => exn_str o
  | HTTPException sc d => pretty sc +:+ ": " +:+ d
  end.

Definition ValueError (msg : string) : pyexn := Raised (MkExn "ValueError" true msg).
Definition RuntimeError (msg : string) : pyexn := Raised (MkExn "RuntimeError" true msg).

(** Truth value of [None]-or-[str], [None]-or-[list] and [None]-or-object. *)
Definition truthy_str (v : option string) : bool :=
  match v with
  | None => false
  | Some s => negb (String.eqb s "")
  end.

Definition truthy_list {A} (v : option (list A)) : bool :=
  match v with
  | None | Some [] => false
  | Some (_ :: _) => true
  end.

Definition truthy_obj {A} (v : option A) : bool :=
  match v with
  | None => false
  | Some _ => true
  end.

End Py.
Export Py.


(** ** The provider SDK ([google.genai]) as the program sees it *)

Module Genai.

(** Outcome of reading an attribute of an SDK object: attributes may be
    properties, so a read either yields a value or raises. *)
Definition attr (A : Type) : Type := pyexn + A.

(** [chunk.web], with its [uri] and [title]. *)
Record GroundingChunkWeb := {
  web_uri : attr pyval;
  web_title : attr pyval
}.

Record GroundingChunk := {
  chunk_web : attr (option GroundingChunkWeb)
}.

Record GroundingMetadata := {
  grounding_chunks : attr (option (list GroundingChunk))
}.

Record Candidate := {
  grounding_metadata : attr (option GroundingMetadata)
}.

(** The object returned by [client.models.generate_content]. *)
Record GenerateContentResponse := {
  candidates : attr (option (list Candidate));
  text : attr pyval
}.

(** [types.GoogleSearch()], [types.Tool(google_search=...)] and
    [types.GenerateContentConfig(tools=[...])]. *)
Inductive GoogleSearch := MkGoogleSearch.

Record Tool := {
  google_search : option GoogleSearch
}.

Record GenerateContentConfig := {
  tools : list Tool
}.

(** One outbound call [generate_content(model=, contents=, config=)]. *)
Record GenerateCall := {
  call_model : string;
  call_contents : string;
  call_config : GenerateContentConfig
}.

(** The client handle.  The service behind it is outside the program: its
    answer to a call may depend on the calls made before, and is either a
    raised exception or a response object. *)
Record Client := {
  generate_content : list GenerateCall -> GenerateCall -> pyexn + GenerateContentResponse
}.

End Genai.
Export Genai.

(** ** State and exceptions *)

(** The mutable state a request can touch: the heap of list objects and the
    log of calls sent to the provider, oldest first. *)
Record World := {
  heap : gmap loc (list pyval);
  calls : list GenerateCall
}.

Module Eff.

(** A computation either returns or raises, and leaves a new state. *)
Definition M (A : Type) : Type := World -> (pyexn + A) * World.

Definition ret {A} (a : A) : M A := fun w => (inr a, w).

Definition raise {A} (e : pyexn) : M A := fun w => (inl e, w).

Definition bind {A B} (m : M A) (k : A -> M B) : M B :=
  fun w =>
    match m w with
    | (inr a, w') => k a w'
    | (inl e, w') => (inl e, w')
    end.

(** [try: body except Exception as e: handler e].  An exception whose class
    does not derive from [Exception] is not caught. *)
Definition try_except_Exception {A} (body : M A) (handler : pyexn -> M A) : M A :=
  fun w =>
    match body w with
    | (inr a, w') => (inr a, w')
    | (inl e, w') => if is_Exception e then handler e w' else (inl e, w')
    end.

End Eff.
Export Eff.

Declare Scope eff_scope.
Delimit Scope eff_scope with eff.
Notation "x <- m ;; k" := (bind m (fun x => k))
  (at level 100, m at next level, right associativity) : eff_scope.
Notation "m ;;; k" := (bind m (fun _ => k))
  (at level 100, right associativity) : eff_scope.
Local Open Scope eff_scope.

Module Ops.

(** Reading an attribute of an object. *)
Definition getattr {A} (a : attr A) : M A :=
  match a with
  | inr v => ret v
  | inl e => raise e
  end.

Definition AttributeError (name : string) : pyexn :=
  Raised (MkExn "AttributeError" true
            ("'NoneType' object has no attribute '" +:+ name +:+ "'")).

(** Reading attribute [name] of a value that is an object or [None]. *)
Definition getattr_opt {O A} (name : string) (field : O -> attr A) (o : option O) : M A :=
  match o with
  | Some obj => getattr (field obj)
  | None => raise (AttributeError name)
  end.

(** [xs[0]] on a value that is a list or [None]. *)
Definition item0 {A} (xs : option (list A)) : M A :=
  match xs with
  | Some (x :: _) => ret x
  | Some [] => raise (Raised (MkExn "IndexError" true "list index out of range"))
  | None => raise (Raised (MkExn "TypeError" true "'NoneType' object is not subscriptable"))
  end.

(** [iter(xs)] on a value that is a list or [None]. *)
Definition iter {A} (xs : option (list A)) : M (list A) :=
  match xs with
  | Some l => ret l
  | None => raise (Raised (MkExn "TypeError" true "'NoneType' object is not iterable"))
  end.

(** [for x in l: body x]. *)
Fixpoint for_each {A} (l : list A) (body : A -> M unit) : M unit :=
  match l with
  | [] => ret tt
  | x :: rest => body x ;;; for_each rest body
  end.

(** [[]]: a new list object, at an address not in use. *)
Definition new_list : M loc :=
  fun w =>
    let a := fresh (dom (heap w)) in
    (inr a, {| heap := <[a := []]> (heap w); calls := calls w |}).

(** [lst.append(v)], for the list object at address [a].  A reference always
    designates a live object, so the address is allocated. *)
Definition list_append (a : loc) (v : pyval) : M unit :=
  fun w =>
    (inr tt, {| heap := alter (fun l => l ++ [v]) a (heap w); calls := calls w |}).

(** [client.models.generate_content(model=, contents=, config=)]: the call
    goes out (and is logged) whatever its outcome. *)
Definition models_generate_content (client : Client) (model contents : string)
    (config : GenerateContentConfig) : M GenerateContentResponse :=
  fun w =>
    let call := {| call_model := model; call_contents := contents; call_config := config |} in
    let w' := {| heap := heap w; calls := calls w ++ [call] |} in
    match generate_content client (calls w) call with
    | inr response => (inr response, w')
    | inl e => (inl e, w')
    end.

End Ops.
Export Ops.

(** ** The web framework (FastAPI) as the program uses it *)

Module FastAPI.

Inductive json :=
| JNull
| JStr (s : string)
| JArr (items : list json)
| JObj (fields : list (string * json)).

Inductive http_response :=
| JSONResponse (status_code : Z) (content : json)
| PlainTextResponse (status_code : Z) (content : string).

Definition status_of (r : http_response) : Z :=
  match r with
  | JSONResponse sc _ | PlainTextResponse sc _ => sc
  end.

(** [d[key]] on the items of a dict or of a JSON object. *)
Fixpoint dict_get {V} (key : string) (items : list (string * V)) : option V :=
  match items with
  | [] => None
  | (k, v) :: rest => if String.eqb k key then Some v else dict_get key rest
  end.

(** Field [key] of a response body; plain-text bodies have no fields. *)
Definition body_field (key : string) (r : http_response) : option json :=
  match r with
  | JSONResponse _ (JObj fields) => dict_get key fields
  | _ => None
  end.

(** Validation of a handler's return value against
    [class SearchSource(BaseModel): uri: str; title: str]. *)
Definition validate_SearchSource (v : pyval) : option json :=
  match v with
  | PyDict items =>
      match dict_get "uri" items, dict_get "title" items with
      | Some (PyStr u), Some (PyStr t) => Some (JObj [("uri", JStr u); ("title", JStr t)])
      | _, _ => None
      end
  | _ => None
  end.

(** Validation against
    [class SearchResponse(BaseModel): response: str; source: list[SearchSource]];
    the list is read from the heap when the response is produced. *)
Definition validate_SearchResponse (h : gmap loc (list pyval)) (v : pyval) : option json :=
  match v with
  | PyDict items =>
      match dict_get "response" items, dict_get "source" items with
      | Some (PyStr s), Some (PyList a) =>
          l ← h !! a;
          srcs ← mapM validate_SearchSource l;
          Some (JObj [("response", JStr s); ("source", JArr srcs)])
      | _, _ => None
      end
  | _ => None
  end.

(** [jsonable_encoder], used for a route without a response model.  The
    depth bound stands for the interpreter's recursion limit. *)
Fixpoint jsonable (depth : nat) (h : gmap loc (list pyval)) (v : pyval) : option json :=
  match depth with
  | O => None
  | S d =>
      match v with
      | PyNone => Some JNull
      | PyStr s => Some (JStr s)
      | PyDict items =>
          JObj <$> mapM (fun kv => pair (fst kv) <$> jsonable d h (snd kv)) items
      | PyList a =>
          l ← h !! a;
          JArr <$> mapM (jsonable d h) l
      end
  end.

Definition jsonable_encoder := jsonable 1000.

(** What the framework does with a route handler: the returned value is
    encoded into a 200 response; an [HTTPException] becomes a JSON response
    with its status code and [{"detail": detail}]; a value that fails the
    response model, like any other uncaught [Exception], becomes the plain
    500 response; anything else propagates out of the server. *)
Definition respond (encode : gmap loc (list pyval) -> pyval -> option json)
    (handler : M pyval) : World -> (pyexn + http_response) * World :=
  fun w =>
    match handler w with
    | (inr v, w') =>
        match encode (heap w') v with
        | Some body => (inr (JSONResponse 200 body), w')
        | None => (inr (PlainTextResponse 500 "Internal Server Error"), w')
        end
    | (inl (HTTPException sc detail), w') =>
        (inr (JSONResponse sc (JObj [("detail", JStr detail)])), w')
    | (inl (Raised e), w') =>
        if exn_is_Exception e
        then (inr (PlainTextResponse 500 "Internal Server Error"), w')
        else (inl (Raised e), w')
    end.

End FastAPI.
Export FastAPI.

(** ** [main.py] *)

Module Main.

(** *** Start-up: module-level code, lines 12-23 *)

Section Startup.

(** [genai.Client(api_key=...)]: receives whatever [os.environ.get] gave. *)
Variable genai_Client : option string -> pyexn + Client.

Definition missing_key_message : string :=
  "GEMINI_API_KEY 環境變數遺失。請檢查 .env 檔案或環境設定。".

(** Runs the module body on [os.environ] as it stands once
    [dotenv.load_dotenv()] has run.  The second component lists the
    [api_key] arguments with which [genai.Client] was called. *)
Definition module_init (environ : gmap string string)
    : (pyexn + Client) * list (option string) :=
  let GEMINI_API_KEY := environ !! "GEMINI_API_KEY" in
  if negb (truthy_str GEMINI_API_KEY) then
    (inl (ValueError missing_key_message), [])
  else
    match genai_Client GEMINI_API_KEY with
    | inr client => (inr client, [GEMINI_API_KEY])
    | inl e =>
        if is_Exception e
        then (inl (RuntimeError ("無法初始化 Gemini Client: " +:+ str e)), [GEMINI_API_KEY])
        else (inl e, [GEMINI_API_KEY])
    end.

End Startup.

(** *** The request models *)

Record PromptRequest := {
  keyword : string
}.

(** *** The core function and the route handlers *)

Section Handlers.

(** The module-level [client]. *)
Variable client : Client.

Definition prompt_head : string := "請針對關鍵字『".

Definition prompt_tail : string :=
  "』，搜尋並總結其最近一個月內最相關的新聞與事件。"
  +:+ "請只回傳新聞標題以及新聞網址，並將標題和網址整理成一個Markdown格式的列表。".

Definition build_prompt (keyword : string) : string :=
  prompt_head +:+ keyword +:+ prompt_tail.

Definition grounding_tool : Tool := {| google_search := Some MkGoogleSearch |}.

Definition config : GenerateContentConfig := {| tools := [grounding_tool] |}.

(** Lines 83-88: the body of the loop over the grounding chunks. *)
Definition collect_chunk (source_list : loc) (chunk : GroundingChunk) : M unit :=
  w1 <- getattr (chunk_web chunk) ;;
  if truthy_obj w1 then
    w2 <- getattr (chunk_web chunk) ;;
    uri <- getattr_opt "uri" web_uri w2 ;;
    w3 <- getattr (chunk_web chunk) ;;
    title <- getattr_opt "title" web_title w3 ;;
    let source := PyDict [("uri", uri); ("title", title)] in
    list_append source_list source
  else ret tt.

(** Lines 76-92: what the [try] block does once the call has returned. *)
Definition extract_fields (response : GenerateContentResponse) : M pyval :=
  source_list <- new_list ;;
  c1 <- getattr (candidates response) ;;
  has_metadata <-
    (if truthy_list c1 then
       c2 <- getattr (candidates response) ;;
       first <- item0 c2 ;;
       gm <- getattr (grounding_metadata first) ;;
       ret (truthy_obj gm)
     else ret false) ;;
  (if has_metadata : bool then
     c3 <- getattr (candidates response) ;;
     first <- item0 c3 ;;
     metadata <- getattr (grounding_metadata first) ;;
     gc1 <- getattr_opt "grounding_chunks" grounding_chunks metadata ;;
     if truthy_list gc1 then
       gc2 <- getattr_opt "grounding_chunks" grounding_chunks metadata ;;
       chunks <- iter gc2 ;;
       for_each chunks (collect_chunk source_list)
     else ret tt
   else ret tt) ;;;
  txt <- getattr (text response) ;;
  let output := PyDict [("response", txt); ("source", PyList source_list)] in
  ret output.

Definition error_prefix : string := "Gemini API 處理錯誤: ".

Definition generate_grounded_content (keyword : string) : M pyval :=
  let prompt := build_prompt keyword in
  try_except_Exception
    (response <- models_generate_content client "gemini-2.5-flash" prompt config ;;
     extract_fields response)
    (fun e => raise (HTTPException 500 (error_prefix +:+ str e))).

(** [@app.post("/search-news", response_model=SearchResponse)]. *)
Definition search_news_api (request : PromptRequest) : M pyval :=
  result <- generate_grounded_content (keyword request) ;;
  ret result.

(** [@app.get("/callback")]. *)
Definition read_root : M pyval :=
  ret (PyDict [("status", PyStr "OK")]).

(** The two routes as served by the framework. *)
Definition post_search_news (request : PromptRequest) :=
  respond validate_SearchResponse (search_news_api request).

Definition get_callback :=
  respond jsonable_encoder read_root.

End Handlers.

(** *** The process *)

Inductive request :=
| POST_search_news (body : PromptRequest)
| GET_callback.

(** A process whose module body raised has exited; otherwise the
    application object exists and the server routes requests to it. *)
Inductive process :=
| Exited (e : pyexn)
| Serving (client : Client).

Definition start (genai_Client : option string -> pyexn + Client)
    (environ : gmap string string) : process :=
  match fst (module_init genai_Client environ) with
  | inl e => Exited e
  | inr client => Serving client
  end.

(** The answer of the process to a request: none when it is not running. *)
Definition serve (p : process) (r : request) (w : World)
    : option ((pyexn + http_response) * World) :=
  match p with
  | Exited _ => None
  | Serving client =>
      Some (match r with
            | POST_search_news body => post_search_news client body w
            | GET_callback => get_callback w
            end)
  end.

End Main.
Export Main.

(** ** The contract in the words of the specification *)

Module Contract.

(** A response whose attributes read normally. *)
Definition web_ok (w : GroundingChunkWeb) : bool :=
  match web_uri w, web_title w with
  | inr _, inr _ => true
  | _, _ => false
  end.

Definition chunk_ok (c : GroundingChunk) : bool :=
  match chunk_web c with
  | inr None => true
  | inr (Some w) => web_ok w
  | inl _ => false
  end.

Definition metadata_ok (m : GroundingMetadata) : bool :=
  match grounding_chunks m with
  | inr None => true
  | inr (Some l) => forallb chunk_ok l
  | inl _ => false
  end.

Definition candidate_ok (c : Candidate) : bool :=
  match grounding_metadata c with
  | inr None => true
  | inr (Some m) => metadata_ok m
  | inl _ => false
  end.

(** Only the first candidate counts: the program looks at no other. *)
Definition response_ok (r : GenerateContentResponse) : bool :=
  match text r, candidates r with
  | inr _, inr None | inr _, inr (Some []) => true
  | inr _, inr (Some (first :: _)) => candidate_ok first
  | _, _ => false
  end.

(** The grounding chunks of a response: those of the metadata of its first
    candidate, none when a link of that chain is missing. *)
Definition grounding_chunks_of (r : GenerateContentResponse) : list GroundingChunk :=
  match candidates r with
  | inr (Some (first :: _)) =>
      match grounding_metadata first with
      | inr (Some m) =>
          match grounding_chunks m with
          | inr (Some l) => l
          | _ => []
          end
      | _ => []
      end
  | _ => []
  end.

(** The [{uri, title}] entry of a chunk that exposes a web citation. *)
Definition web_citation (c : GroundingChunk) : option pyval :=
  match chunk_web c with
  | inr (Some w) =>
      match web_uri w, web_title w with
      | inr u, inr t => Some (PyDict [("uri", u); ("title", t)])
      | _, _ => None
      end
  | _ => None
  end.

(** One entry per chunk with a web citation, in chunk order, the others
    skipped. *)
Definition cited_sources (r : GenerateContentResponse) : list pyval :=
  omap web_citation (grounding_chunks_of r).

(** No candidates, no grounding metadata, or no grounding chunks. *)
Definition no_grounding (r : GenerateContentResponse) : bool :=
  match candidates r with
  | inr None | inr (Some []) => true
  | inr (Some (first :: _)) =>
      match grounding_metadata first with
      | inr None => true
      | inr (Some m) =>
          match grounding_chunks m with
          | inr None | inr (Some []) => true
          | _ => false
          end
      | inl _ => false
      end
  | inl _ => false
  end.

(** [sub] occurs in [s]. *)
Definition includes (s sub : string) : Prop :=
  exists before after, s = before +:+ sub +:+ after.

(** The call that [generate_grounded_content keyword] sends. *)
Definition call_for (keyword : string) : GenerateCall :=
  {| call_model := "gemini-2.5-flash";
     call_contents := build_prompt keyword;
     call_config := config |}.

(** The state once the call for [keyword] has gone out. *)
Definition after_call (keyword : string) (w : World) : World :=
  {| heap := heap w; calls := calls w ++ [call_for keyword] |}.

(** The dict [{"response": txt, "source": <list at a>}]. *)
Definition output_dict (txt : pyval) (a : loc) : pyval :=
  PyDict [("response", txt); ("source", PyList a)].

Definition is_4xx (status : Z) : bool := (400 <=? status) && (status <? 500).

(** A JSON citation [{"uri": <string>, "title": <string>}]. *)
Definition is_source_json (j : json) : Prop :=
  exists u t, j = JObj [("uri", JStr u); ("title", JStr t)].

(** The body of the 500 response for the exception [e]. *)
Definition error_body (e : pyexn) : json :=
  JObj [("detail", JStr (error_prefix +:+ str e))].

(** The property of the response schema read without restriction: whatever
    response object the provider returns, the endpoint answers with a body
    that has a string [response] and a list [source]. *)
Definition always_answers_with_schema : Prop :=
  forall (client : Client) (request : PromptRequest) (w : World) (r : GenerateContentResponse),
    generate_content client (calls w) (call_for (keyword request)) = inr r ->
    exists resp w' s items,
      post_search_news client request w = (inr resp, w')
      /\ body_field "response" resp = Some (JStr s)
      /\ body_field "source" resp = Some (JArr items).

(** [cause] is what the [try] block of [generate_grounded_content keyword]
    raises from the state [w]: the exception of the provider call, or, when
    the call returned a response, the exception of the extraction from it. *)
Definition raised_in_try (client : Client) (keyword : string) (w : World)
    (cause : pyexn) : Prop :=
  generate_content client (calls w) (call_for keyword) = inl cause
  \/ exists r w1,
       generate_content client (calls w) (call_for keyword) = inr r
       /\ extract_fields r (after_call keyword w) = (inl cause, w1).

End Contract.
Export Contract.

(** ** Sample runs *)

Module Samples.

Definition empty_world : World := {| heap := ∅; calls := [] |}.

(** A provider that answers every call the same way. *)
Definition constant_client (o : pyexn + GenerateContentResponse) : Client :=
  {| generate_content := fun _ _ => o |}.

Definition web_chunk (uri title : string) : GroundingChunk :=
  {| chunk_web := inr (Some {| web_uri := inr (PyStr uri); web_title := inr (PyStr title) |}) |}.

Definition plain_chunk : GroundingChunk := {| chunk_web := inr None |}.

Definition grounded_response (txt : pyval) (chunks : list GroundingChunk)
    : GenerateContentResponse :=
  {| candidates :=
       inr (Some [ {| grounding_metadata :=
                        inr (Some {| grounding_chunks := inr (Some chunks) |}) |} ]);
     text := inr txt |}.

(** The example of the specification: two cited news items. *)
Definition news_text : string := "- News A (url1)
- News B (url2)".

Definition news_response : GenerateContentResponse :=
  grounded_response (PyStr news_text)
    [web_chunk "uri1" "title1"; web_chunk "uri2" "title2"].

(** One citation between two chunks without a web source. *)
Definition mixed_response : GenerateContentResponse :=
  grounded_response (PyStr "summary")
    [plain_chunk; web_chunk "https://a.example" "A"; plain_chunk].

(** A response without grounding metadata. *)
Definition ungrounded_response : GenerateContentResponse :=
  {| candidates := inr (Some [ {| grounding_metadata := inr None |} ]);
     text := inr (PyStr "nothing found") |}.

(** A response without candidates, whose [text] is [None]. *)
Definition null_text_response : GenerateContentResponse :=
  {| candidates := inr None; text := inr PyNone |}.

(** A response whose [text] property raises. *)
Definition text_error : pyexn := Raised (MkExn "ValueError" true "no text part").

Definition raising_text_response : GenerateContentResponse :=
  {| candidates := inr None; text := inl text_error |}.

(** A response whose second chunk has a [uri] that raises. *)
Definition uri_error : pyexn := Raised (MkExn "AttributeError" true "uri").

Definition broken_chunk_response : GenerateContentResponse :=
  grounded_response (PyStr "summary")
    [web_chunk "uri1" "title1";
     {| chunk_web := inr (Some {| web_uri := inl uri_error; web_title := inr (PyStr "t") |}) |}].

Definition quota_error : pyexn := Raised (MkExn "ClientError" true "429 RESOURCE_EXHAUSTED").

(** A provider that answers its first call with [first] and every later
    call with [later]. *)
Definition two_step_client (first later : pyexn + GenerateContentResponse) : Client :=
  {| generate_content := fun history _ =>
       match history with
       | [] => first
       | _ :: _ => later
       end |}.

(** Client constructors: one that always succeeds, one that always fails. *)
Definition working_ctor (api_key : option string) : pyexn + Client :=
  inr (constant_client (inr news_response)).

Definition failing_ctor (api_key : option string) : pyexn + Client :=
  inl (Raised (MkExn "ValueError" true "invalid api key")).

(** Two invocations in a row against a provider that answers the first
    with the two news items and the second with the single citation. *)
Definition two_answers : Client :=
  two_step_client (inr news_response) (inr mixed_response).

Definition world_after_first : World :=
  snd (generate_grounded_content two_answers "first" empty_world).

Definition world_after_second : World :=
  snd (generate_grounded_content two_answers "second" world_after_first).

Definition empty_key_environ : gmap string string :=
  {[ "GEMINI_API_KEY" := "" ]}.

(** A state in which another request's list already lives on the heap. *)
Definition busy_world : World :=
  {| heap := {[ 0%nat := [PyDict [("uri", PyStr "old"); ("title", PyStr "Old")]] ]};
     calls := [] |}.

(** A response with a second candidate whose metadata cannot be read. *)
Definition broken_metadata_error : pyexn := Raised (MkExn "ValueError" true "metadata").

Definition second_candidate_broken : GenerateContentResponse :=
  {| candidates :=
       inr (Some [ {| grounding_metadata :=
                        inr (Some {| grounding_chunks :=
                                       inr (Some [web_chunk "uri1" "title1"]) |}) |};
                   {| grounding_metadata := inl broken_metadata_error |} ]);
     text := inr (PyStr "summary") |}.

Definition first_candidate_only : GenerateContentResponse :=
  grounded_response (PyStr "summary") [web_chunk "uri1" "title1"].

(** A citation whose [uri] is [None]. *)
Definition null_uri_response : GenerateContentResponse :=
  grounded_response (PyStr "summary")
    [web_chunk "uri1" "title1";
     {| chunk_web := inr (Some {| web_uri := inr PyNone; web_title := inr (PyStr "t") |}) |}].

Definition key_environ : gmap string string :=
  {[ "GEMINI_API_KEY" := "secret" ]}.

End Samples.
Export Samples.

(** ** Running the effects *)

Section Running.

Lemma world_eta (w : World) : {| heap := heap w; calls := calls w |} = w.
Proof. by destruct w. Qed.

Lemma append_empty_r (s : string) : s +:+ "" = s.
Proof.
  induction s as [|c s IH]; [done|].
  change (String c (s +:+ "") = String c s). by rewrite IH.
Qed.

Lemma includes_suffix (prefix s : string) : includes (prefix +:+ s) s.
Proof. exists prefix, "". by rewrite append_empty_r. Qed.

End Running.

Ltac run_step :=
  unfold bind, ret, raise, getattr, getattr_opt, item0, iter, truthy_list, truthy_obj;
  simpl.

(** *** The loop over the chunks *)

Section Loop.

Variable a : loc.

(** One turn of the loop, attribute by attribute. *)
Lemma collect_chunk_run (c : GroundingChunk) (w : World) :
  collect_chunk a c w =
    match chunk_web c with
    | inl e => (inl e, w)
    | inr None => (inr tt, w)
    | inr (Some web) =>
        match web_uri web, web_title web with
        | inl e, _ => (inl e, w)
        | inr _, inl e => (inl e, w)
        | inr u, inr t =>
            (inr tt,
             {| heap := alter (fun l => l ++ [PyDict [("uri", u); ("title", t)]]) a (heap w);
                calls := calls w |})
        end
    end.
Proof.
  unfold collect_chunk. run_step.
  destruct (chunk_web c) as [e|[web|]]; simpl; try done.
  destruct (web_uri web) as [e|u]; simpl; try done.
  destruct (web_title web) as [e|t]; simpl; done.
Qed.

(** The loop touches the list at [a] only: it leaves the list extended with
    the citations of the chunks it went through; when it runs to the end
    these are the citations of all chunks, and it runs to the end exactly
    when every chunk reads normally. *)
Lemma for_each_collect (chunks : list GroundingChunk) :
  forall (w : World) (l0 : list pyval),
    heap w !! a = Some l0 ->
    exists o l',
      for_each chunks (collect_chunk a) w
        = (o, {| heap := <[a := l']> (heap w); calls := calls w |})
      /\ (o = inr tt -> l' = l0 ++ omap web_citation chunks)
      /\ (forallb chunk_ok chunks = true <-> o = inr tt).
Proof.
  induction chunks as [|c rest IH]; intros w l0 Hl0.
  - exists (inr tt), l0. simpl. rewrite insert_id by done. rewrite world_eta.
    split_and!; [done | by rewrite app_nil_r | done].
  - cbn [for_each forallb omap list_omap]. unfold bind at 1. rewrite collect_chunk_run.
    unfold web_citation at 1, chunk_ok at 1, web_ok.
    destruct (chunk_web c) as [e|[web|]] eqn:Hweb.
    + exists (inl e), l0. rewrite insert_id by done. rewrite world_eta.
      by split_and!.
    + destruct (web_uri web) as [e|u] eqn:Hu.
      { exists (inl e), l0. rewrite insert_id by done. rewrite world_eta.
        by split_and!. }
      destruct (web_title web) as [e|t] eqn:Ht.
      { exists (inl e), l0. rewrite insert_id by done. rewrite world_eta.
        by split_and!. }
      set (d := PyDict [("uri", u); ("title", t)]).
      set (w1 := {| heap := alter (fun l => l ++ [d]) a (heap w); calls := calls w |}).
      destruct (IH w1 (l0 ++ [d])) as (o & l' & Hrun & Hret & Hok).
      { simpl. by rewrite lookup_alter_eq, Hl0. }
      exists o, l'. rewrite Hrun. simpl.
      rewrite insert_alter_eq. split_and!; [done | | done].
      intros Ho. rewrite (Hret Ho), <- app_assoc. done.
    + destruct (IH w l0 Hl0) as (o & l' & Hrun & Hret & Hok).
      exists o, l'. rewrite Hrun. by split_and!.
Qed.

End Loop.

(** *** The extraction block *)

Ltac use_ok :=
  repeat match goal with
         | H : _ && _ = true |- _ => apply andb_prop in H as [? ?]
         end;
  unfold candidate_ok, metadata_ok in *;
  repeat match goal with
         | H : ?x = _, H' : context [match ?x with _ => _ end] |- _ => rewrite H in H'
         | H : ?x = _ |- context [match ?x with _ => _ end] => rewrite H
         end.

Ltac settle_extract :=
  destruct (text _) as [?|?] eqn:?; run_step;
  (eexists _, _; split_and!; [reflexivity | ..]);
  intros; simplify_eq; use_ok; simplify_eq; try (split; [done|]); by eauto 6.

Section Extraction.

Local Arguments for_each : simpl never.

Lemma extract_fields_run (r : GenerateContentResponse) (w : World) :
  let a := fresh (dom (heap w)) in
  exists o l,
    extract_fields r w = (o, {| heap := <[a := l]> (heap w); calls := calls w |})
    /\ (forall v, o = inr v ->
          response_ok r = true
          /\ exists t, text r = inr t /\ v = output_dict t a /\ l = cited_sources r)
    /\ (response_ok r = true -> exists t, text r = inr t /\ o = inr (output_dict t a))
    /\ (no_grounding r = true -> forall t, text r = inr t ->
          o = inr (output_dict t a) /\ l = []).
Proof.
  intros a. unfold extract_fields, new_list. unfold bind at 1. fold a.
  set (w0 := {| heap := <[a := []]> (heap w); calls := calls w |}).
  unfold response_ok, no_grounding, cited_sources, grounding_chunks_of.
  destruct (candidates r) as [e|[[|c0 cs]|]] eqn:Hc; run_step.
  1, 2, 4: settle_extract.
  destruct (grounding_metadata c0) as [e|[m|]] eqn:Hm; run_step;
    [settle_extract | | settle_extract].
  destruct (grounding_chunks m) as [e|[chunks|]] eqn:Hg; run_step;
    [settle_extract | | settle_extract].
  destruct (for_each_collect a chunks w0 []) as (o & l' & Hrun & Hret & Hok).
  { simpl. apply lookup_insert_eq. }
  simpl in Hrun. rewrite insert_insert_eq in Hrun.
  destruct chunks as [|ch chs]; [settle_extract|].
  rewrite Hrun. destruct o as [e|[]].
  - eexists _, _; split_and!; [reflexivity | intros; simplify_eq ..].
    destruct (text r); [done|]. use_ok. by apply Hok in H.
  - rewrite (Hret eq_refl). simpl app.
    assert (Hall : forallb chunk_ok (ch :: chs) = true) by by apply Hok.
    settle_extract.
Qed.

End Extraction.

(** *** The core function *)

Section Core.

Variable client : Client.

Lemma generate_when_provider_raises keyword w e :
  generate_content client (calls w) (call_for keyword) = inl e ->
  generate_grounded_content client keyword w =
    (inl (if is_Exception e then HTTPException 500 (error_prefix +:+ str e) else e),
     after_call keyword w).
Proof.
  intros Hp. unfold generate_grounded_content, try_except_Exception, bind,
    models_generate_content.
  fold (call_for keyword). rewrite Hp. by destruct (is_Exception e).
Qed.

Lemma generate_when_provider_returns keyword w r :
  generate_content client (calls w) (call_for keyword) = inr r ->
  generate_grounded_content client keyword w =
    match extract_fields r (after_call keyword w) with
    | (inr v, w') => (inr v, w')
    | (inl e, w') =>
        (inl (if is_Exception e then HTTPException 500 (error_prefix +:+ str e) else e), w')
    end.
Proof.
  intros Hp. unfold generate_grounded_content, try_except_Exception, bind,
    models_generate_content.
  fold (call_for keyword). rewrite Hp. fold (after_call keyword w).
  destruct (extract_fields r (after_call keyword w)) as [[e|v] w']; [|done].
  by destruct (is_Exception e).
Qed.

(** Whatever the provider does, one call goes out, no list that existed
    before is touched, and an exception that leaves the function is either
    the [HTTPException] with status 500 or not an [Exception] at all. *)
Lemma generate_footprint keyword w :
  exists o w',
    generate_grounded_content client keyword w = (o, w')
    /\ calls w' = calls w ++ [call_for keyword]
    /\ (forall b l, heap w !! b = Some l -> heap w' !! b = Some l)
    /\ (forall e, o = inl e ->
          (exists detail, e = HTTPException 500 detail) \/ is_Exception e = false).
Proof.
  destruct (generate_content client (calls w) (call_for keyword)) as [e|r] eqn:Hp.
  - rewrite (generate_when_provider_raises _ _ _ Hp).
    eexists _, _; split_and!; [done | done | done |].
    intros e' [= <-]. destruct (is_Exception e) eqn:He; eauto.
  - rewrite (generate_when_provider_returns _ _ _ Hp).
    destruct (extract_fields_run r (after_call keyword w)) as (o & l & -> & _).
    assert (Hframe : forall b x, heap w !! b = Some x ->
              <[fresh (dom (heap w)) := l]> (heap w) !! b = Some x).
    { intros b x Hb. rewrite lookup_insert_ne; [done|].
      intros <-. pose proof (is_fresh (dom (heap w))) as Hf.
      apply not_elem_of_dom in Hf. congruence. }
    destruct o as [e|v]; simpl; eexists _, _; split_and!; try done.
    intros e' [= <-]. destruct (is_Exception e) eqn:He; eauto.
Qed.

Lemma search_news_api_run (request : PromptRequest) (w : World) :
  search_news_api client request w = generate_grounded_content client (keyword request) w.
Proof.
  unfold search_news_api, bind, ret.
  by destruct (generate_grounded_content client (keyword request) w) as [[e|v] w'].
Qed.

(** A response that reads normally: the function returns its text and a
    list of its own holding the citations. *)
Lemma generate_when_response_ok keyword w r :
  generate_content client (calls w) (call_for keyword) = inr r ->
  response_ok r = true ->
  exists t a w',
    generate_grounded_content client keyword w = (inr (output_dict t a), w')
    /\ text r = inr t
    /\ heap w !! a = None
    /\ heap w' !! a = Some (cited_sources r).
Proof.
  intros Hp Hok. rewrite (generate_when_provider_returns _ _ _ Hp).
  destruct (extract_fields_run r (after_call keyword w)) as (o & l & -> & Hret & Htot & _).
  destruct (Htot Hok) as (t & Ht & ->).
  destruct (Hret _ eq_refl) as (_ & t' & Ht' & _ & ->).
  eexists t, _, _. split_and!; [done | done | |].
  - apply not_elem_of_dom, is_fresh.
  - simpl. apply lookup_insert_eq.
Qed.

(** X6.  Given that the provider returned a response, the function returns
    a value exactly when that response reads normally: its text, and the
    metadata, chunks and web citations of its first candidate. *)
Lemma generate_returns_iff keyword w r :
  generate_content client (calls w) (call_for keyword) = inr r ->
  (exists v w', generate_grounded_content client keyword w = (inr v, w'))
  <-> response_ok r = true.
Proof.
  intros Hp. rewrite (generate_when_provider_returns _ _ _ Hp).
  destruct (extract_fields_run r (after_call keyword w)) as (o & l & -> & Hret & Htot & _).
  split.
  - intros (v & w' & Hv). destruct o as [e|v0]; [done|]. by destruct (Hret v0 eq_refl).
  - intros Hok. destruct (Htot Hok) as (t & _ & ->). by eexists _, _.
Qed.

End Core.

(** ** The properties of the specification *)

(** *** The successful path *)

Section Success.

Variable client : Client.

(** In a chunk that reads normally, the entry is missing exactly when the
    chunk has no web citation. *)
Lemma web_citation_skips (c : GroundingChunk) :
  chunk_ok c = true -> (web_citation c = None <-> chunk_web c = inr None).
Proof.
  unfold chunk_ok, web_ok, web_citation.
  destruct (chunk_web c) as [e|[web|]]; [done | | done].
  destruct (web_uri web), (web_title web); done.
Qed.

(** C1.  When the provider call succeeds with a response that reads
    normally, [generate_grounded_content] returns the dict whose [response]
    is the text of the provider response and whose [source] is a list,
    allocated by this call, holding exactly one [{uri, title}] entry per
    grounding chunk that exposes a web citation, in the provider's chunk
    order, the chunks without a web citation being skipped. *)
Theorem generate_grounded_content_success (keyword : string) (w : World)
    (r : GenerateContentResponse) :
  generate_content client (calls w) (call_for keyword) = inr r ->
  response_ok r = true ->
  exists t a w',
    generate_grounded_content client keyword w = (inr (output_dict t a), w')
    /\ text r = inr t
    /\ heap w !! a = None
    /\ heap w' !! a = Some (omap web_citation (grounding_chunks_of r)).
Proof. apply generate_when_response_ok. Qed.

(** C4.  When the provider response has no candidates, no grounding
    metadata or no grounding chunks, [generate_grounded_content] returns
    the provider's text under [response] and the empty list under
    [source]. *)
Theorem no_grounding_gives_empty_source (keyword : string) (w : World)
    (r : GenerateContentResponse) (t : pyval) :
  generate_content client (calls w) (call_for keyword) = inr r ->
  no_grounding r = true ->
  text r = inr t ->
  exists a w',
    generate_grounded_content client keyword w = (inr (output_dict t a), w')
    /\ heap w' !! a = Some [].
Proof.
  intros Hp Hno Ht. rewrite (generate_when_provider_returns _ _ _ _ Hp).
  destruct (extract_fields_run r (after_call keyword w)) as (o & l & -> & _ & _ & Hempty).
  destruct (Hempty Hno t Ht) as [-> ->].
  eexists _, _. split; [done|]. simpl. apply lookup_insert_eq.
Qed.

End Success.

Lemma generate_grounded_content_success_witness :
  generate_content (constant_client (inr news_response)) (calls empty_world)
      (call_for "generative AI") = inr news_response
  /\ response_ok news_response = true
  /\ exists t a w',
       generate_grounded_content (constant_client (inr news_response))
           "generative AI" empty_world
         = (inr (output_dict t a), w')
       /\ text news_response = inr t
       /\ heap empty_world !! a = None
       /\ heap w' !! a = Some (omap web_citation (grounding_chunks_of news_response)).
Proof.
  split; [reflexivity|]. split; [reflexivity|].
  apply (generate_grounded_content_success (constant_client (inr news_response))
           "generative AI" empty_world news_response); reflexivity.
Defined.

Lemma no_grounding_gives_empty_source_witness :
  let client := constant_client (inr ungrounded_response) in
  generate_content client (calls empty_world) (call_for "AI") = inr ungrounded_response
  /\ no_grounding ungrounded_response = true
  /\ text ungrounded_response = inr (PyStr "nothing found")
  /\ exists a w',
       generate_grounded_content client "AI" empty_world
         = (inr (output_dict (PyStr "nothing found") a), w')
       /\ heap w' !! a = Some [].
Proof.
  intros client. split_and!; [reflexivity | reflexivity | reflexivity |].
  apply (no_grounding_gives_empty_source client "AI" empty_world ungrounded_response);
    reflexivity.
Defined.

(** The first example of the specification, through the endpoint. *)
Example news_example :
  fst (post_search_news (constant_client (inr news_response))
         {| keyword := "generative AI" |} empty_world)
  = inr (JSONResponse 200
           (JObj [("response", JStr news_text);
                  ("source", JArr [JObj [("uri", JStr "uri1"); ("title", JStr "title1")];
                                   JObj [("uri", JStr "uri2"); ("title", JStr "title2")]])])).
Proof. vm_compute. reflexivity. Qed.

(** The second example: no grounding metadata. *)
Example ungrounded_example :
  fst (post_search_news (constant_client (inr ungrounded_response))
         {| keyword := "AI" |} empty_world)
  = inr (JSONResponse 200
           (JObj [("response", JStr "nothing found"); ("source", JArr [])])).
Proof. vm_compute. reflexivity. Qed.

Example mixed_example :
  cited_sources mixed_response
  = [PyDict [("uri", PyStr "https://a.example"); ("title", PyStr "A")]].
Proof. reflexivity. Qed.

(** *** The failure path *)

Section Failure.

Variable client : Client.

(** C2.  When the provider call raises an error (an instance of
    [Exception]), the endpoint answers with status 500 and the body
    [{"detail": d}] where [d] includes the message of the error; exactly one
    call has gone out (no retry), no list was built and the body carries
    nothing else (no partial result). *)
Theorem provider_error_gives_500 (request : PromptRequest) (w : World) (e : pyexn) :
  generate_content client (calls w) (call_for (keyword request)) = inl e ->
  is_Exception e = true ->
  generate_grounded_content client (keyword request) w
    = (inl (HTTPException 500 (error_prefix +:+ str e)), after_call (keyword request) w)
  /\ post_search_news client request w
       = (inr (JSONResponse 500 (error_body e)), after_call (keyword request) w)
  /\ includes (error_prefix +:+ str e) (str e)
  /\ calls (after_call (keyword request) w) = calls w ++ [call_for (keyword request)]
  /\ heap (after_call (keyword request) w) = heap w.
Proof.
  intros Hp He.
  pose proof (generate_when_provider_raises client _ _ _ Hp) as Hg.
  rewrite He in Hg. split_and!; [done | | apply includes_suffix | done | done].
  unfold post_search_news, respond. by rewrite search_news_api_run, Hg.
Qed.

(** C9.  An error (an instance of [Exception]) raised while the fields of a
    response that the provider did return are extracted, be it by reading
    its text or by walking its grounding metadata, is caught by the same
    handler: the endpoint answers 500 with a [detail] that includes the
    message of that error. *)
Theorem extraction_error_gives_500 (request : PromptRequest) (w w' : World)
    (r : GenerateContentResponse) (e : pyexn) :
  generate_content client (calls w) (call_for (keyword request)) = inr r ->
  extract_fields r (after_call (keyword request) w) = (inl e, w') ->
  is_Exception e = true ->
  generate_grounded_content client (keyword request) w
    = (inl (HTTPException 500 (error_prefix +:+ str e)), w')
  /\ post_search_news client request w = (inr (JSONResponse 500 (error_body e)), w')
  /\ includes (error_prefix +:+ str e) (str e).
Proof.
  intros Hp Hx He.
  pose proof (generate_when_provider_returns client _ _ _ Hp) as Hg.
  rewrite Hx, He in Hg. split_and!; [done | | apply includes_suffix].
  unfold post_search_news, respond. by rewrite search_news_api_run, Hg.
Qed.

(** What [except Exception] lets through: an exception whose class does not
    derive from [Exception] leaves the function, and the endpoint, as it
    is. *)
Lemma base_exception_propagates (request : PromptRequest) (w : World) (e : pyexn) :
  generate_content client (calls w) (call_for (keyword request)) = inl e ->
  is_Exception e = false ->
  post_search_news client request w = (inl e, after_call (keyword request) w).
Proof.
  intros Hp He.
  pose proof (generate_when_provider_raises client _ _ _ Hp) as Hg.
  rewrite He in Hg. unfold post_search_news, respond.
  rewrite search_news_api_run, Hg. destruct e as [e0|sc d]; [|done].
  simpl in He. by rewrite He.
Qed.

End Failure.

Lemma provider_error_gives_500_witness :
  let client := constant_client (inl quota_error) in
  let request := {| keyword := "generative AI" |} in
  generate_content client (calls empty_world) (call_for (keyword request)) = inl quota_error
  /\ is_Exception quota_error = true
  /\ post_search_news client request empty_world
       = (inr (JSONResponse 500 (error_body quota_error)),
          after_call (keyword request) empty_world).
Proof.
  intros client request. split; [reflexivity|]. split; [reflexivity|].
  apply (provider_error_gives_500 client request empty_world quota_error);
    reflexivity.
Defined.

Lemma extraction_error_gives_500_witness :
  let client := constant_client (inr raising_text_response) in
  let request := {| keyword := "AI" |} in
  let w' := snd (extract_fields raising_text_response (after_call "AI" empty_world)) in
  generate_content client (calls empty_world) (call_for (keyword request))
    = inr raising_text_response
  /\ extract_fields raising_text_response (after_call (keyword request) empty_world)
       = (inl text_error, w')
  /\ is_Exception text_error = true
  /\ post_search_news client request empty_world
       = (inr (JSONResponse 500 (error_body text_error)), w').
Proof.
  intros client request w'.
  split_and!; [reflexivity | vm_compute; reflexivity | reflexivity |].
  apply (extraction_error_gives_500 client request empty_world w'
           raising_text_response text_error);
    [reflexivity | vm_compute; reflexivity | reflexivity].
Defined.

(** The third example of the specification: the provider call throws. *)
Example quota_example :
  fst (post_search_news (constant_client (inl quota_error))
         {| keyword := "generative AI" |} empty_world)
  = inr (JSONResponse 500
           (JObj [("detail", JStr "Gemini API 處理錯誤: 429 RESOURCE_EXHAUSTED")])).
Proof. vm_compute. reflexivity. Qed.

(** An error in the middle of the walk: the second chunk's [uri] raises
    after the first chunk was collected. *)
Example broken_chunk_example :
  fst (post_search_news (constant_client (inr broken_chunk_response))
         {| keyword := "AI" |} empty_world)
  = inr (JSONResponse 500 (error_body uri_error)).
Proof. vm_compute. reflexivity. Qed.

(** *** The response schema *)

Section Schema.

Variable client : Client.

Lemma validate_sources_shape (l : list pyval) (items : list json) :
  mapM validate_SearchSource l = Some items -> Forall is_source_json items.
Proof.
  intros Hm. apply mapM_Some_1 in Hm.
  induction Hm as [|v j l items Hv _ IH]; constructor; [|done].
  unfold validate_SearchSource in Hv. repeat case_match; simplify_eq.
  by eexists _, _.
Qed.

Lemma validate_SearchResponse_shape (h : gmap loc (list pyval)) (v : pyval) (body : json) :
  validate_SearchResponse h v = Some body ->
  exists s items,
    body = JObj [("response", JStr s); ("source", JArr items)]
    /\ Forall is_source_json items.
Proof.
  unfold validate_SearchResponse. intros Hv.
  repeat case_match; simplify_option_eq.
  eexists _, _. split; [done|]. by eapply validate_sources_shape.
Qed.

(** The statuses of the search route.  For every keyword and whatever the
    provider does, the route either answers 200 with a body made of a string
    [response] and a list [source] of [{uri, title}] string pairs, or answers
    500 with a body that has neither field; the only other outcome is an
    exception that is not an [Exception] leaving the handler. *)
Theorem search_news_schema_or_500 (request : PromptRequest) (w : World) :
  exists o w',
    post_search_news client request w = (o, w')
    /\ match o with
       | inr resp =>
           (exists s items,
              resp = JSONResponse 200 (JObj [("response", JStr s); ("source", JArr items)])
              /\ Forall is_source_json items)
           \/ (status_of resp = 500
               /\ body_field "response" resp = None
               /\ body_field "source" resp = None)
       | inl e => is_Exception e = false
       end.
Proof.
  unfold post_search_news, respond. rewrite search_news_api_run.
  destruct (generate_footprint client (keyword request) w) as (o & w' & -> & _ & _ & Hexn).
  destruct o as [e|v].
  - destruct (Hexn e eq_refl) as [[detail ->]|He].
    + eexists _, _. split; [done|]. right. by split_and!.
    + destruct e as [e0|sc d]; [|done]. simpl in He. rewrite He.
      eexists _, _. by split.
  - destruct (validate_SearchResponse (heap w') v) as [body|] eqn:Hv.
    + apply validate_SearchResponse_shape in Hv as (s & items & -> & Hitems).
      eexists _, _. split; [done|]. left. by eexists _, _.
    + eexists _, _. split; [done|]. right. by split_and!.
Qed.

(** The 200 answer does occur: a response that reads normally, whose text
    is a string and whose citations pass the response model, is answered
    with that text and those citations. *)
Lemma post_search_news_success (request : PromptRequest) (w : World)
    (r : GenerateContentResponse) (s : string) (items : list json) :
  generate_content client (calls w) (call_for (keyword request)) = inr r ->
  response_ok r = true ->
  text r = inr (PyStr s) ->
  mapM validate_SearchSource (cited_sources r) = Some items ->
  exists w',
    post_search_news client request w
    = (inr (JSONResponse 200 (JObj [("response", JStr s); ("source", JArr items)])), w').
Proof.
  intros Hp Hok Ht Hitems.
  destruct (generate_when_response_ok client _ w r Hp Hok)
    as (t & a & w' & Hg & Ht' & _ & Ha).
  assert (t = PyStr s) as -> by congruence.
  exists w'. unfold post_search_news, respond. rewrite search_news_api_run, Hg.
  unfold validate_SearchResponse, output_dict. simpl.
  rewrite Ha. simpl. by rewrite Hitems.
Qed.

End Schema.

(** A provider response whose text is [None]: the core function returns the
    dict with [None] under [response], which the response model refuses. *)
Example null_text_core :
  fst (generate_grounded_content (constant_client (inr null_text_response)) "AI" empty_world)
  = inr (PyDict [("response", PyNone); ("source", PyList 0%nat)]).
Proof. vm_compute. reflexivity. Qed.

Example null_text_endpoint :
  fst (post_search_news (constant_client (inr null_text_response))
         {| keyword := "AI" |} empty_world)
  = inr (PlainTextResponse 500 "Internal Server Error").
Proof. vm_compute. reflexivity. Qed.

(** Hence the schema property, read over every provider response, does not
    hold of the code. *)
Lemma always_answers_with_schema_fails : ~ always_answers_with_schema.
Proof.
  intros H.
  destruct (H (constant_client (inr null_text_response)) {| keyword := "AI" |}
              empty_world null_text_response eq_refl)
    as (resp & w' & s & items & Hrun & Hresp & _).
  pose proof null_text_endpoint as Hex. rewrite Hrun in Hex. simpl in Hex.
  injection Hex as ->. discriminate Hresp.
Qed.

(** C3.  The property is violated by the code, at a response the provider
    call returns normally: no candidates and [None] for text.  The core
    function puts that [None] under [response], next to a fresh empty list,
    although the route declares [response_model=SearchResponse] with
    [response: str].  The value is returned, so the [except] clause does not
    see it; the response model refuses it and the route answers the plain-text
    500, which has no [response], no [source] and no [detail] field.  The
    failure path of the same function, a text that raises, answers the JSON
    500 with its [detail]. *)
Theorem null_text_breaks_schema :
  let client := constant_client (inr null_text_response) in
  let request := {| keyword := "AI" |} in
  let answer := PlainTextResponse 500 "Internal Server Error" in
  generate_content client (calls empty_world) (call_for (keyword request))
    = inr null_text_response
  /\ candidates null_text_response = inr None
  /\ text null_text_response = inr PyNone
  /\ fst (generate_grounded_content client (keyword request) empty_world)
       = inr (PyDict [("response", PyNone); ("source", PyList 0%nat)])
  /\ heap (snd (generate_grounded_content client (keyword request) empty_world)) !! 0%nat
       = Some []
  /\ fst (post_search_news client request empty_world) = inr answer
  /\ body_field "response" answer = None
  /\ body_field "source" answer = None
  /\ body_field "detail" answer = None
  /\ fst (post_search_news (constant_client (inr raising_text_response))
            request empty_world)
       = inr (JSONResponse 500 (error_body text_error)).
Proof. repeat split; vm_compute; reflexivity. Qed.

(** *** Isolation of invocations *)

Section Isolation.

Variable client : Client.

(** C5.  Two invocations, one after the other on the same heap (the handler
    never yields inside [generate_grounded_content], so invocations do not
    interleave), for any keywords and any provider responses that read
    normally.  Each returns a list it allocated itself: the two lists are
    distinct objects, neither existed before its invocation, each holds the
    citations of its own provider response and nothing else, and the second
    invocation leaves the list of the first as it was. *)
Theorem invocations_do_not_share_sources (kw1 kw2 : string) (w0 : World)
    (r1 r2 : GenerateContentResponse) :
  generate_content client (calls w0) (call_for kw1) = inr r1 ->
  generate_content client (calls w0 ++ [call_for kw1]) (call_for kw2) = inr r2 ->
  response_ok r1 = true ->
  response_ok r2 = true ->
  exists t1 a1 w1 t2 a2 w2,
    generate_grounded_content client kw1 w0 = (inr (output_dict t1 a1), w1)
    /\ generate_grounded_content client kw2 w1 = (inr (output_dict t2 a2), w2)
    /\ heap w0 !! a1 = None /\ heap w1 !! a2 = None /\ a1 <> a2
    /\ heap w1 !! a1 = Some (cited_sources r1)
    /\ heap w2 !! a1 = Some (cited_sources r1)
    /\ heap w2 !! a2 = Some (cited_sources r2).
Proof.
  intros Hp1 Hp2 Hok1 Hok2.
  destruct (generate_when_response_ok client kw1 w0 r1 Hp1 Hok1)
    as (t1 & a1 & w1 & Hg1 & _ & Hnew1 & Hl1).
  destruct (generate_footprint client kw1 w0) as (o & w1' & Hg1' & Hcalls & _).
  rewrite Hg1 in Hg1'. injection Hg1' as <- <-. rewrite <- Hcalls in Hp2.
  destruct (generate_when_response_ok client kw2 w1 r2 Hp2 Hok2)
    as (t2 & a2 & w2 & Hg2 & _ & Hnew2 & Hl2).
  destruct (generate_footprint client kw2 w1) as (o2 & w2' & Hg2' & _ & Hframe & _).
  rewrite Hg2 in Hg2'. injection Hg2' as <- <-.
  exists t1, a1, w1, t2, a2, w2. split_and!; try done.
  - intros ->. congruence.
  - by apply Hframe.
Qed.

End Isolation.

Lemma invocations_do_not_share_sources_witness :
  generate_content two_answers (calls empty_world) (call_for "first") = inr news_response
  /\ generate_content two_answers (calls empty_world ++ [call_for "first"])
       (call_for "second") = inr mixed_response
  /\ response_ok news_response = true
  /\ response_ok mixed_response = true
  /\ exists t1 a1 w1 t2 a2 w2,
       generate_grounded_content two_answers "first" empty_world
         = (inr (output_dict t1 a1), w1)
       /\ generate_grounded_content two_answers "second" w1
            = (inr (output_dict t2 a2), w2)
       /\ heap empty_world !! a1 = None /\ heap w1 !! a2 = None /\ a1 <> a2
       /\ heap w1 !! a1 = Some (cited_sources news_response)
       /\ heap w2 !! a1 = Some (cited_sources news_response)
       /\ heap w2 !! a2 = Some (cited_sources mixed_response).
Proof.
  split_and!; [reflexivity | reflexivity | reflexivity | reflexivity |].
  apply (invocations_do_not_share_sources two_answers "first" "second"
           empty_world news_response mixed_response);
    reflexivity.
Defined.

(** The heap after the two invocations: one list per invocation. *)
Example two_lists_example :
  heap world_after_second
  = {[ 0%nat := [PyDict [("uri", PyStr "uri1"); ("title", PyStr "title1")];
                 PyDict [("uri", PyStr "uri2"); ("title", PyStr "title2")]];
       1%nat := [PyDict [("uri", PyStr "https://a.example"); ("title", PyStr "A")]] ]}.
Proof. vm_compute. reflexivity. Qed.

(** *** The empty keyword and the health route *)

Section Routes.

Variable client : Client.

(** C7.  The empty keyword is not rejected: the prompt is the template
    around the empty string, the provider call goes out with it, and the
    function then returns a value or raises; the only [HTTPException] it can
    raise has status 500, never a 4xx status. *)
Theorem empty_keyword_is_not_rejected (w : World) :
  build_prompt "" = prompt_head +:+ prompt_tail
  /\ exists o w',
       generate_grounded_content client "" w = (o, w')
       /\ calls w' = calls w ++ [ {| call_model := "gemini-2.5-flash";
                                     call_contents := build_prompt "";
                                     call_config := config |} ]
       /\ match o with
          | inr _ => True
          | inl (HTTPException status _) => status = 500 /\ is_4xx status = false
          | inl (Raised e) => exn_is_Exception e = false
          end.
Proof.
  split; [reflexivity|].
  destruct (generate_footprint client "" w) as (o & w' & Hg & Hcalls & _ & Hexn).
  exists o, w'. split_and!; [done | done |].
  destruct o as [[e|sc d]|v]; [| |done].
  - destruct (Hexn _ eq_refl) as [[detail [=]]|He]; done.
  - destruct (Hexn _ eq_refl) as [[detail [= -> ->]]|He]; done.
Qed.

(** C8.  [GET /callback] answers 200 with the body [{"status": "OK"}] in
    every state and whatever the client is, and leaves the state as it
    was. *)
Theorem callback_always_ok (w : World) :
  get_callback w = (inr (JSONResponse 200 (JObj [("status", JStr "OK")])), w)
  /\ serve (Serving client) GET_callback w
       = Some (inr (JSONResponse 200 (JObj [("status", JStr "OK")])), w).
Proof. split; reflexivity. Qed.

End Routes.

(** The empty keyword against a provider that answers. *)
Example empty_keyword_example :
  fst (post_search_news (constant_client (inr ungrounded_response))
         {| keyword := "" |} empty_world)
  = inr (JSONResponse 200
           (JObj [("response", JStr "nothing found"); ("source", JArr [])])).
Proof. vm_compute. reflexivity. Qed.

(** *** Start-up *)

Section StartupClaims.

Variable genai_Client : option string -> pyexn + Client.

(** C6.  When the credential is absent from the environment, or when the
    construction of the provider client fails, the module body raises: the
    process has exited and answers no request. *)
Theorem startup_failure_is_fatal (environ : gmap string string) :
  environ !! "GEMINI_API_KEY" = None
  \/ (exists e, genai_Client (environ !! "GEMINI_API_KEY") = inl e) ->
  exists e,
    fst (module_init genai_Client environ) = inl e
    /\ start genai_Client environ = Exited e
    /\ forall req w, serve (start genai_Client environ) req w = None.
Proof.
  intros Hfail.
  assert (exists e, fst (module_init genai_Client environ) = inl e) as [e He].
  { unfold module_init.
    destruct (truthy_str (environ !! "GEMINI_API_KEY")) eqn:Hkey; simpl; [|by eexists].
    destruct Hfail as [Hnone|[e Hctor]].
    - by rewrite Hnone in Hkey.
    - rewrite Hctor. destruct (is_Exception e); by eexists. }
  exists e. unfold start. rewrite He. by split_and!.
Qed.

(** C10.  A credential that is present but empty is handled as an absent
    one: the module body raises the same [ValueError], and does so without
    having called the client constructor. *)
Theorem empty_credential_is_fatal (environ : gmap string string) :
  environ !! "GEMINI_API_KEY" = Some "" ->
  module_init genai_Client environ = (inl (ValueError missing_key_message), [])
  /\ module_init genai_Client environ
       = module_init genai_Client (delete "GEMINI_API_KEY" environ)
  /\ start genai_Client environ = Exited (ValueError missing_key_message).
Proof.
  intros Hkey. unfold start, module_init.
  rewrite Hkey, lookup_delete_eq. by split_and!.
Qed.

End StartupClaims.

Lemma startup_failure_is_fatal_witness :
  (∅ : gmap string string) !! "GEMINI_API_KEY" = None
  /\ exists e,
       fst (module_init working_ctor ∅) = inl e
       /\ start working_ctor ∅ = Exited e
       /\ forall req w, serve (start working_ctor ∅) req w = None.
Proof.
  split; [reflexivity|].
  apply (startup_failure_is_fatal working_ctor ∅). left. reflexivity.
Defined.

Lemma empty_credential_is_fatal_witness :
  empty_key_environ !! "GEMINI_API_KEY" = Some ""
  /\ module_init working_ctor empty_key_environ
       = (inl (ValueError missing_key_message), []).
Proof.
  split; [reflexivity|].
  apply (empty_credential_is_fatal working_ctor empty_key_environ). reflexivity.
Defined.

(** A present, non-empty credential with a working constructor starts the
    server. *)
Example startup_ok :
  start working_ctor {[ "GEMINI_API_KEY" := "secret" ]}
  = Serving (constant_client (inr news_response)).
Proof. reflexivity. Qed.

(** A constructor that raises: the [RuntimeError] wraps its message. *)
Example startup_ctor_failure :
  module_init failing_ctor {[ "GEMINI_API_KEY" := "secret" ]}
  = (inl (RuntimeError ("無法初始化 Gemini Client: " +:+ "invalid api key")), [Some "secret"]).
Proof. reflexivity. Qed.

(** ** Further properties of [main.py] *)

(** *** The prompt (lines 55-58) *)

Section Prompt.

Lemma length_append (s t : string) :
  String.length (s +:+ t) = (String.length s + String.length t)%nat.
Proof.
  induction s as [|c s IH]; [done|].
  change (S (String.length (s +:+ t)) = S (String.length s + String.length t)).
  by rewrite IH.
Qed.

Lemma append_cancel_r (t s1 s2 : string) : s1 +:+ t = s2 +:+ t -> s1 = s2.
Proof.
  revert s2. induction s1 as [|c1 s1 IH]; intros [|c2 s2] Heq; [done | | |].
  - apply (f_equal String.length) in Heq.
    change (String c2 s2 +:+ t) with (String c2 (s2 +:+ t)) in Heq.
    change ("" +:+ t) with t in Heq. simpl in Heq. rewrite length_append in Heq. lia.
  - apply (f_equal String.length) in Heq.
    change (String c1 s1 +:+ t) with (String c1 (s1 +:+ t)) in Heq.
    change ("" +:+ t) with t in Heq. simpl in Heq. rewrite length_append in Heq. lia.
  - change (String c1 (s1 +:+ t) = String c2 (s2 +:+ t)) in Heq.
    injection Heq as -> Heq. f_equal. by apply IH.
Qed.

(** X1.  The prompt is the keyword, verbatim, between the two fixed parts
    of the template: the opening up to the quotation mark, and the rest of
    the first sentence followed by the second.  Hence two requests get the
    same prompt only when their keywords are the same. *)
Theorem prompt_determines_keyword (k1 k2 : string) :
  build_prompt k1 = build_prompt k2 ->
  k1 = k2
  /\ build_prompt k1
     = "請針對關鍵字『" +:+ k1
       +:+ "』，搜尋並總結其最近一個月內最相關的新聞與事件。請只回傳新聞標題以及新聞網址，並將標題和網址整理成一個Markdown格式的列表。"
  /\ includes (build_prompt k1) k1.
Proof.
  unfold build_prompt. intros Heq. split_and!.
  - apply (inj (String.append prompt_head)) in Heq. by apply append_cancel_r in Heq.
  - reflexivity.
  - by exists prompt_head, prompt_tail.
Qed.

End Prompt.

Lemma prompt_determines_keyword_witness :
  build_prompt "AI" = build_prompt "AI"
  /\ "AI" = "AI"
  /\ build_prompt "AI"
     = "請針對關鍵字『AI』，搜尋並總結其最近一個月內最相關的新聞與事件。請只回傳新聞標題以及新聞網址，並將標題和網址整理成一個Markdown格式的列表。"
  /\ includes (build_prompt "AI") "AI".
Proof.
  split; [reflexivity|].
  apply (prompt_determines_keyword "AI" "AI"). reflexivity.
Defined.

(** *** What a search request touches (lines 62-99 and 103-110) *)

Section Footprint.

Variable client : Client.

Lemma respond_keeps_state (encode : gmap loc (list pyval) -> pyval -> option json)
    (handler : M pyval) (w : World) :
  snd (respond encode handler w) = snd (handler w).
Proof.
  unfold respond. destruct (handler w) as [[[e|sc d]|v] w']; simpl; [| done |].
  - by destruct (exn_is_Exception e).
  - by destruct (encode (heap w') v).
Qed.

(** The heap after the core function ran: as before when the provider
    raised, with one more list at the next free address when it returned. *)
Lemma generate_heap (keyword : string) (w : World) :
  match generate_content client (calls w) (call_for keyword) with
  | inl _ => heap (snd (generate_grounded_content client keyword w)) = heap w
  | inr _ =>
      exists l, heap (snd (generate_grounded_content client keyword w))
                = <[fresh (dom (heap w)) := l]> (heap w)
  end.
Proof.
  destruct (generate_content client (calls w) (call_for keyword)) as [e|r] eqn:Hp.
  - by rewrite (generate_when_provider_raises _ _ _ _ Hp).
  - rewrite (generate_when_provider_returns _ _ _ _ Hp).
    destruct (extract_fields_run r (after_call keyword w)) as (o & l & -> & _).
    exists l. by destruct o.
Qed.

(** X2.  Whatever its outcome, a search request sends exactly one call to
    the provider: to the model [gemini-2.5-flash], with the prompt built
    from the request's keyword and with the search-grounding tool as the
    only tool. *)
Theorem search_request_sends_one_call (request : PromptRequest) (w : World) :
  calls (snd (post_search_news client request w))
  = calls w ++ [ {| call_model := "gemini-2.5-flash";
                    call_contents := build_prompt (keyword request);
                    call_config := {| tools := [ {| google_search := Some MkGoogleSearch |} ] |} |} ].
Proof.
  unfold post_search_news. rewrite respond_keeps_state, search_news_api_run.
  destruct (generate_footprint client (keyword request) w) as (o & w' & -> & Hcalls & _).
  exact Hcalls.
Qed.

(** X3.  A list that is on the heap when the core function starts is the
    same when it ends, whether the function returns or raises, also when
    the walk over the chunks stops half way. *)
Theorem existing_lists_are_untouched (keyword : string) (w : World)
    (b : loc) (l : list pyval) :
  heap w !! b = Some l ->
  heap (snd (generate_grounded_content client keyword w)) !! b = Some l.
Proof.
  intros Hb.
  destruct (generate_footprint client keyword w) as (o & w' & -> & _ & Hframe & _).
  by apply Hframe.
Qed.

(** X4.  The core function allocates no list when the provider call
    raises, and exactly one, at an address that was free, when the provider
    call returns, whatever happens afterwards. *)
Theorem at_most_one_list_allocated (keyword : string) (w : World) :
  match generate_content client (calls w) (call_for keyword) with
  | inl _ => dom (heap (snd (generate_grounded_content client keyword w))) = dom (heap w)
  | inr _ =>
      dom (heap (snd (generate_grounded_content client keyword w)))
        = {[ fresh (dom (heap w)) ]} ∪ dom (heap w)
      /\ fresh (dom (heap w)) ∉ dom (heap w)
  end.
Proof.
  pose proof (generate_heap keyword w) as Hh.
  destruct (generate_content client (calls w) (call_for keyword)) as [e|r].
  - by rewrite Hh.
  - destruct Hh as [l ->]. split; [by rewrite dom_insert_L | apply is_fresh].
Qed.

(** X5.  An exception that leaves the core function comes from the
    exception that its [try] block raised, be it by the provider call or by
    the extraction: when that one is an [Exception], what leaves is the
    [HTTPException] with status 500 whose detail is the fixed prefix followed
    by its message; when it is not, it leaves unchanged. *)
Theorem only_http_500_escapes (keyword : string) (w w' : World) (e : pyexn) :
  generate_grounded_content client keyword w = (inl e, w') ->
  exists cause,
    raised_in_try client keyword w cause
    /\ ((is_Exception cause = true
         /\ e = HTTPException 500 ("Gemini API 處理錯誤: " +:+ str cause))
        \/ (is_Exception cause = false /\ e = cause)).
Proof.
  intros Hg.
  assert (Hwrap : forall cause,
            e = (if is_Exception cause
                 then HTTPException 500 (error_prefix +:+ str cause) else cause) ->
            (is_Exception cause = true
             /\ e = HTTPException 500 ("Gemini API 處理錯誤: " +:+ str cause))
            \/ (is_Exception cause = false /\ e = cause)).
  { intros cause ->. destruct (is_Exception cause) eqn:Hc; [left | right]; done. }
  destruct (generate_content client (calls w) (call_for keyword)) as [e0|r] eqn:Hp.
  - rewrite (generate_when_provider_raises _ _ _ _ Hp) in Hg.
    injection Hg as <- _. exists e0. split; [by left | by apply Hwrap].
  - rewrite (generate_when_provider_returns _ _ _ _ Hp) in Hg.
    destruct (extract_fields r (after_call keyword w)) as [[e1|v] w1] eqn:Hx; [|done].
    injection Hg as <- _. exists e1. split; [|by apply Hwrap].
    right. by exists r, w1.
Qed.

End Footprint.

Lemma existing_lists_are_untouched_witness :
  let old := [PyDict [("uri", PyStr "old"); ("title", PyStr "Old")]] in
  heap busy_world !! 0%nat = Some old
  /\ heap (snd (generate_grounded_content (constant_client (inr broken_chunk_response))
                  "AI" busy_world)) !! 0%nat = Some old.
Proof.
  intros old. split; [reflexivity|].
  apply (existing_lists_are_untouched (constant_client (inr broken_chunk_response))
           "AI" busy_world 0%nat old).
  reflexivity.
Defined.

Lemma only_http_500_escapes_witness :
  let client := constant_client (inr broken_chunk_response) in
  let w' := snd (generate_grounded_content client "AI" empty_world) in
  generate_grounded_content client "AI" empty_world
    = (inl (HTTPException 500 ("Gemini API 處理錯誤: " +:+ str uri_error)), w')
  /\ exists cause,
       raised_in_try client "AI" empty_world cause
       /\ ((is_Exception cause = true
            /\ HTTPException 500 ("Gemini API 處理錯誤: " +:+ str uri_error)
               = HTTPException 500 ("Gemini API 處理錯誤: " +:+ str cause))
           \/ (is_Exception cause = false
               /\ HTTPException 500 ("Gemini API 處理錯誤: " +:+ str uri_error) = cause)).
Proof.
  intros client w'. split; [vm_compute; reflexivity|].
  apply (only_http_500_escapes client "AI" empty_world w').
  vm_compute; reflexivity.
Defined.

(** A request served while another list is on the heap: the new list goes
    to the next address. *)
Example busy_world_example :
  heap (snd (generate_grounded_content (constant_client (inr first_candidate_only))
               "AI" busy_world))
  = {[ 0%nat := [PyDict [("uri", PyStr "old"); ("title", PyStr "Old")]];
       1%nat := [PyDict [("uri", PyStr "uri1"); ("title", PyStr "title1")]] ]}.
Proof. vm_compute. reflexivity. Qed.

Lemma generate_returns_iff_witness :
  let client := constant_client (inr second_candidate_broken) in
  generate_content client (calls empty_world) (call_for "AI") = inr second_candidate_broken
  /\ ((exists v w', generate_grounded_content client "AI" empty_world = (inr v, w'))
      <-> response_ok second_candidate_broken = true).
Proof.
  intros client. split; [reflexivity|].
  apply (generate_returns_iff client "AI" empty_world second_candidate_broken).
  reflexivity.
Defined.

(** *** Which parts of the response are read (lines 79-91) *)

Section Reads.

(** X7.  Of the candidates only the first is looked at: two responses with
    the same text and the same first candidate give the same result,
    whatever their other candidates are. *)
Theorem only_first_candidate_is_read (r r' : GenerateContentResponse)
    (first : Candidate) (others others' : list Candidate) (w : World) :
  candidates r = inr (Some (first :: others)) ->
  candidates r' = inr (Some (first :: others')) ->
  text r = text r' ->
  extract_fields r w = extract_fields r' w.
Proof.
  intros Hc Hc' Ht. unfold extract_fields. by rewrite Hc, Hc', Ht.
Qed.

End Reads.

Lemma only_first_candidate_is_read_witness :
  candidates second_candidate_broken
    = inr (Some [ {| grounding_metadata :=
                       inr (Some {| grounding_chunks :=
                                      inr (Some [web_chunk "uri1" "title1"]) |}) |};
                  {| grounding_metadata := inl broken_metadata_error |} ])
  /\ extract_fields second_candidate_broken empty_world
     = extract_fields first_candidate_only empty_world.
Proof.
  split; [reflexivity|].
  eapply (only_first_candidate_is_read second_candidate_broken first_candidate_only);
    reflexivity.
Defined.

(** *** The answers of the search route (lines 38-46, 76-92 and 103-110) *)

Section Answers.

Variable client : Client.

(** What the response model accepts from the core function. *)
Lemma validate_output_dict (h : gmap loc (list pyval)) (t : pyval) (a : loc)
    (l : list pyval) :
  h !! a = Some l ->
  validate_SearchResponse h (output_dict t a)
  = match t with
    | PyStr s =>
        items ← mapM validate_SearchSource l;
        Some (JObj [("response", JStr s); ("source", JArr items)])
    | _ => None
    end.
Proof.
  intros Ha. unfold validate_SearchResponse, output_dict. simpl.
  destruct t; try done. by rewrite Ha.
Qed.

(** X8.  Given that the provider returned a response, the route answers 200
    with a given body exactly when the response reads normally, its text is
    a string, each of its citations has a string [uri] and a string [title],
    and the body is made of that text, unchanged, and of those citations, one
    JSON object per citation in the order of the chunks. *)
Theorem ok_answer_iff (request : PromptRequest) (w : World)
    (r : GenerateContentResponse) (body : json) :
  generate_content client (calls w) (call_for (keyword request)) = inr r ->
  (exists w', post_search_news client request w = (inr (JSONResponse 200 body), w'))
  <-> (exists s items,
         response_ok r = true
         /\ text r = inr (PyStr s)
         /\ Forall2 (fun v j => validate_SearchSource v = Some j) (cited_sources r) items
         /\ body = JObj [("response", JStr s); ("source", JArr items)]).
Proof.
  intros Hp. unfold post_search_news, respond.
  rewrite search_news_api_run, (generate_when_provider_returns _ _ _ _ Hp).
  destruct (extract_fields_run r (after_call (keyword request) w))
    as (o & l & -> & Hret & Htot & _).
  split.
  - intros [w' Hrun]. destruct o as [e|v].
    + destruct (is_Exception e) eqn:He; [done|].
      destruct e as [e0|sc d]; [|done]. simpl in He. by rewrite He in Hrun.
    + destruct (Hret v eq_refl) as (Hok & t & Ht & -> & ->).
      rewrite (validate_output_dict _ _ _ (cited_sources r)) in Hrun
        by (simpl; apply lookup_insert_eq).
      destruct t as [|s|?|?]; try done.
      destruct (mapM validate_SearchSource (cited_sources r)) as [items|] eqn:Hm;
        simpl in Hrun; [|done].
      injection Hrun as <- _. exists s, items. split_and!; try done.
      by apply mapM_Some_1.
  - intros (s & items & Hok & Ht & Hitems & ->).
    destruct (Htot Hok) as (t & Ht' & ->).
    destruct (Hret _ eq_refl) as (_ & t' & _ & _ & ->).
    assert (t = PyStr s) as -> by congruence.
    rewrite (validate_output_dict _ _ _ (cited_sources r))
      by (simpl; apply lookup_insert_eq).
    apply mapM_Some_2 in Hitems. rewrite Hitems. simpl. by eexists.
Qed.

(** X9.  A response that reads normally but whose text is not a string, or
    one of whose citations lacks a string [uri] or [title], is not answered
    with the error detail of the [except] clause: the value is returned by
    the core function, refused by the response model, and the route answers
    the plain 500. *)
Theorem schema_failure_gives_plain_500 (request : PromptRequest) (w : World)
    (r : GenerateContentResponse) :
  generate_content client (calls w) (call_for (keyword request)) = inr r ->
  response_ok r = true ->
  (forall s, text r <> inr (PyStr s))
  \/ mapM validate_SearchSource (cited_sources r) = None ->
  (exists v, fst (generate_grounded_content client (keyword request) w) = inr v)
  /\ fst (post_search_news client request w)
     = inr (PlainTextResponse 500 "Internal Server Error").
Proof.
  intros Hp Hok Hbad.
  destruct (generate_when_response_ok client _ w r Hp Hok)
    as (t & a & w' & Hg & Ht & _ & Ha).
  split; [rewrite Hg; by eexists|].
  unfold post_search_news, respond. rewrite search_news_api_run, Hg.
  rewrite (validate_output_dict _ _ _ _ Ha).
  destruct Hbad as [Hnostr|Hnone].
  - destruct t as [|s|?|?]; try done. by destruct (Hnostr s).
  - destruct t as [|s|?|?]; try done. by rewrite Hnone.
Qed.

End Answers.

Lemma ok_answer_iff_witness :
  let client := constant_client (inr mixed_response) in
  let request := {| keyword := "AI" |} in
  let body := JObj [("response", JStr "summary");
                    ("source", JArr [JObj [("uri", JStr "https://a.example");
                                           ("title", JStr "A")]])] in
  generate_content client (calls empty_world) (call_for (keyword request))
    = inr mixed_response
  /\ ((exists w', post_search_news client request empty_world
                  = (inr (JSONResponse 200 body), w'))
      <-> (exists s items,
             response_ok mixed_response = true
             /\ text mixed_response = inr (PyStr s)
             /\ Forall2 (fun v j => validate_SearchSource v = Some j)
                  (cited_sources mixed_response) items
             /\ body = JObj [("response", JStr s); ("source", JArr items)])).
Proof.
  intros client request body. split; [reflexivity|].
  apply (ok_answer_iff client request empty_world mixed_response body).
  reflexivity.
Defined.

Lemma schema_failure_gives_plain_500_witness :
  let client := constant_client (inr null_uri_response) in
  let request := {| keyword := "AI" |} in
  generate_content client (calls empty_world) (call_for (keyword request))
    = inr null_uri_response
  /\ response_ok null_uri_response = true
  /\ mapM validate_SearchSource (cited_sources null_uri_response) = None
  /\ fst (post_search_news client request empty_world)
     = inr (PlainTextResponse 500 "Internal Server Error").
Proof.
  intros client request. split_and!; [reflexivity | reflexivity | reflexivity |].
  apply (schema_failure_gives_plain_500 client request empty_world null_uri_response);
    [reflexivity | reflexivity | right; reflexivity].
Defined.

(** *** Start-up (lines 12-23) *)

Section StartupMore.

Variable genai_Client : option string -> pyexn + Client.


(** X11.  When the client constructor raises an [Exception], start-up fails
    with a [RuntimeError] whose message includes the message of that
    exception; an exception that is not an [Exception] passes unchanged.
    Either way the constructor was called once and the process has
    exited. *)
Theorem client_error_is_wrapped (environ : gmap string string) (key : string)
    (e : pyexn) :
  environ !! "GEMINI_API_KEY" = Some key ->
  key <> "" ->
  genai_Client (Some key) = inl e ->
  exists fatal,
    module_init genai_Client environ = (inl fatal, [Some key])
    /\ start genai_Client environ = Exited fatal
    /\ (if is_Exception e
        then exists msg, fatal = RuntimeError msg /\ includes msg (str e)
        else fatal = e).
Proof.
  intros Hkey Hne Hctor. unfold start, module_init, truthy_str. rewrite Hkey. simpl.
  destruct (String.eqb_spec key "") as [->|_]; [done|]. simpl. rewrite Hctor.
  destruct (is_Exception e) eqn:He; simpl; eexists; (split_and!; [done | done |]).
  - eexists. split; [done|]. apply includes_suffix.
  - done.
Qed.

End StartupMore.


Lemma client_error_is_wrapped_witness :
  key_environ !! "GEMINI_API_KEY" = Some "secret"
  /\ "secret" <> ""
  /\ exists fatal,
       module_init failing_ctor key_environ = (inl fatal, [Some "secret"])
       /\ start failing_ctor key_environ = Exited fatal
       /\ exists msg, fatal = RuntimeError msg /\ includes msg "invalid api key".
Proof.
  split; [reflexivity|]. split; [discriminate|].
  apply (client_error_is_wrapped failing_ctor key_environ "secret"
           (Raised (MkExn "ValueError" true "invalid api key")));
    [reflexivity | discriminate | reflexivity].
Defined.
